(** * AI Translator: the request handler of [backend/main.py]

    A shallow embedding of the FastAPI backend: the module globals
    ([api_key], [SUPPORTED_LANGUAGES]), the request and response models and
    the [/translate] handler, with the external completion API as an oracle
    whose invocations are logged. *)

From Stdlib Require Import ZArith QArith String Ascii.
From stdpp Require Import base option list gmap.

Local Open Scope Z_scope.

(** ** Python strings

    A [str] is a sequence of Unicode code points: [len] counts code points
    and [strip] removes the code points [str.isspace] accepts. *)

Definition str : Type := list N.

(** An ASCII literal of the source, as the code points it denotes. *)
Definition lit (s : string) : str :=
  List.map N_of_ascii (list_ascii_of_string s).

(** The line feed of a triple-quoted literal. *)
Definition LF : str := [10%N].

(** [len(s)], a Python int. *)
Definition len (s : str) : Z := Z.of_nat (length s).

(** [ch.isspace()] for one code point: CPython's [_PyUnicode_IsWhitespace]. *)
Definition isspace (c : N) : bool :=
  ((9 <=? c) && (c <=? 13) ||
   (28 <=? c) && (c <=? 32) ||
   (c =? 133) || (c =? 160) || (c =? 5760) ||
   (8192 <=? c) && (c <=? 8202) ||
   (c =? 8232) || (c =? 8233) || (c =? 8239) || (c =? 8287) ||
   (c =? 12288))%N.

Fixpoint lstrip (s : str) : str :=
  match s with
  | c :: s' => if isspace c then lstrip s' else s
  | [] => []
  end.

Definition rstrip (s : str) : str := rev (lstrip (rev s)).

(** [s.strip()] with no argument. *)
Definition strip (s : str) : str := rstrip (lstrip s).

(** Truth value of a string: [not s] holds for the empty string only. *)
Definition truthy (s : str) : bool :=
  match s with [] => false | _ :: _ => true end.

(** Truth value of an [Optional[str]]: [None] and [""] are falsy. *)
Definition truthy_opt (o : option str) : bool :=
  match o with Some s => truthy s | None => false end.

(** ** Exceptions

    [HTTPException] is FastAPI's; every other exception is kept with its
    class name and the text [str(e)] gives for it. *)

Inductive exn : Type :=
| HTTPException (status_code : Z) (detail : str)
| PyException (cls : str) (message : str).

Definition isinstance_HTTPException (e : exn) : bool :=
  match e with HTTPException _ _ => true | PyException _ _ => false end.

Inductive PyResult (A : Type) : Type :=
| Ok (a : A)
| Raise (e : exn).
Arguments Ok {A} a.
Arguments Raise {A} e.

(** ** Data models *)

Record TranslationRequest : Type := {
  text : str;
  source_language : str;
  target_language : str;
  model : option str
}.

Record TranslationResponse : Type := {
  original_text : str;
  translated_text : str;
  resp_source_language : str;
  resp_target_language : str
}.

(** The JSON body of [POST /translate]: [model] may be left out, be [null]
    or be a string. *)
Record TranslationBody : Type := {
  body_text : str;
  body_source_language : str;
  body_target_language : str;
  body_model : option (option str)
}.

(** The field default of [TranslationRequest.model]. *)
Definition default_model : str := lit "gpt-3.5-turbo".

(** Construction of the request model from the body: the default fills in
    a field the caller omits. *)
Definition parse_request (b : TranslationBody) : TranslationRequest :=
  {| text := body_text b;
     source_language := body_source_language b;
     target_language := body_target_language b;
     model := match body_model b with
              | Some m => m
              | None => Some default_model
              end |}.

(** ** The completion API *)

Record Message : Type := { role : str; content : str }.

Record CompletionArgs : Type := {
  arg_model : option str;
  arg_messages : list Message;
  arg_temperature : Q;
  arg_max_tokens : Z
}.

Record ChoiceMessage : Type := { msg_content : option str }.
Record Choice : Type := { message : ChoiceMessage }.
Record ChatCompletion : Type := { choices : list Choice }.

(** ** Module globals *)

Definition SUPPORTED_LANGUAGES : gmap str str :=
  list_to_map
    [ (lit "fr", lit "French");
      (lit "en", lit "English");
      (lit "es", lit "Spanish");
      (lit "de", lit "German");
      (lit "it", lit "Italian");
      (lit "pt", lit "Portuguese");
      (lit "ru", lit "Russian");
      (lit "ja", lit "Japanese");
      (lit "ko", lit "Korean");
      (lit "zh", lit "Chinese");
      (lit "ar", lit "Arabic");
      (lit "hi", lit "Hindi") ].

(** [k in d] *)
Definition contains (d : gmap str str) (k : str) : bool :=
  bool_decide (is_Some (d !! k)).

(** [os.getenv(k)] on the process environment (after [load_dotenv] ran). *)
Definition getenv (environ : gmap str str) (k : str) : option str :=
  environ !! k.

Record Globals : Type := { api_key : option str }.

(** Module initialisation, lines 17-19: the import fails when the key is
    unset or empty. *)
Definition module_init (environ : gmap str str) : PyResult Globals :=
  let key := getenv environ (lit "OPENAI_API_KEY") in
  if negb (truthy_opt key)
  then Raise (PyException (lit "ValueError")
                (lit "OPENAI_API_KEY environment variable is required"))
  else Ok {| api_key := key |}.

(** ** Handler monad

    State is the log of the calls made to the completion API, oldest first;
    a computation ends with a value or a raised exception. *)

Definition Log : Type := list CompletionArgs.

Definition M (A : Type) : Type := Log -> PyResult A * Log.

Definition ret {A} (a : A) : M A := fun log => (Ok a, log).

Definition raise {A} (e : exn) : M A := fun log => (Raise e, log).

Definition bind {A B} (c : M A) (k : A -> M B) : M B :=
  fun log =>
    match c log with
    | (Ok a, log') => k a log'
    | (Raise e, log') => (Raise e, log')
    end.

(** [try: c  except Exception as e: h e] *)
Definition try_except {A} (c : M A) (h : exn -> M A) : M A :=
  fun log =>
    match c log with
    | (Ok a, log') => (Ok a, log')
    | (Raise e, log') => h e log'
    end.

(** [if b: raise e] *)
Definition raise_if (b : bool) (e : exn) : M unit :=
  if b then raise e else ret tt.

Notation "'let*' x ':=' c 'in' k" := (bind c (fun x => k))
  (at level 10, x name, c at level 100, k at level 200).
Notation "c ';;' k" := (bind c (fun _ => k))
  (at level 100, k at level 200, right associativity).

(** ** The handler *)

Definition system_content : str :=
  lit "You are a professional translator. Provide accurate and natural translations.".

Definition indent : str := lit "        ".

(** The f-string of lines 99-104, line by line. *)
Definition prompt_of (source_lang target_lang txt : str) : str :=
  LF ++
  indent ++ lit "Translate the following text from " ++ source_lang
         ++ lit " to " ++ target_lang ++ lit "." ++ LF ++
  indent ++ lit "Provide only the translation without any additional explanation or formatting." ++ LF ++
  indent ++ LF ++
  indent ++ lit "Text to translate: " ++ txt ++ LF ++
  indent.

Definition messages_of (prompt : str) : list Message :=
  [ {| role := lit "system"; content := system_content |};
    {| role := lit "user"; content := prompt |} ].

Section Handler.

(** [repr] on strings, the text of a [KeyError]. *)
Variable repr : str -> str.

(** The completion endpoint: its outcome may depend on the calls already
    made. *)
Variable create : Log -> CompletionArgs -> PyResult ChatCompletion.

Variable g : Globals.

(** [d[k]] *)
Definition getitem (d : gmap str str) (k : str) : M str :=
  match d !! k with
  | Some v => ret v
  | None => raise (PyException (lit "KeyError") (repr k))
  end.

(** [client.chat.completions.create(...)] *)
Definition chat_completions_create (a : CompletionArgs) : M ChatCompletion :=
  fun log => (create log a, log ++ [a]).

(** [response.choices[0]] *)
Definition first_choice (r : ChatCompletion) : M Choice :=
  match choices r with
  | c :: _ => ret c
  | [] => raise (PyException (lit "IndexError") (lit "list index out of range"))
  end.

(** [.message.content.strip()] *)
Definition content_strip (c : Choice) : M str :=
  match msg_content (message c) with
  | Some s => ret (strip s)
  | None => raise (PyException (lit "AttributeError")
                     (lit "'NoneType' object has no attribute 'strip'"))
  end.

(** The [try] block, lines 77-124. *)
Definition translate_try (request : TranslationRequest) : M TranslationResponse :=
  raise_if (negb (truthy_opt (api_key g)))
    (HTTPException 500 (lit "OpenAI API key not configured")) ;;
  raise_if (negb (contains SUPPORTED_LANGUAGES (source_language request)))
    (HTTPException 400
       (lit "Source language '" ++ source_language request ++ lit "' not supported")) ;;
  raise_if (negb (contains SUPPORTED_LANGUAGES (target_language request)))
    (HTTPException 400
       (lit "Target language '" ++ target_language request ++ lit "' not supported")) ;;
  raise_if (negb (truthy (strip (text request))))
    (HTTPException 400 (lit "Text cannot be empty")) ;;
  raise_if (len (text request) >? 5000)
    (HTTPException 400 (lit "Text too long (max 5000 characters)")) ;;
  let* source_lang := getitem SUPPORTED_LANGUAGES (source_language request) in
  let* target_lang := getitem SUPPORTED_LANGUAGES (target_language request) in
  let prompt := prompt_of source_lang target_lang (text request) in
  let* response :=
    chat_completions_create
      {| arg_model := model request;
         arg_messages := messages_of prompt;
         arg_temperature := 0.3%Q;
         arg_max_tokens := 1000 |} in
  let* choice := first_choice response in
  let* translated := content_strip choice in
  ret {| original_text := text request;
         translated_text := translated;
         resp_source_language := source_language request;
         resp_target_language := target_language request |}.

(** The [except] clause, lines 126-129. *)
Definition translate_except (e : exn) : M TranslationResponse :=
  match e with
  | HTTPException _ _ => raise e
  | PyException _ message =>
      raise (HTTPException 500 (lit "Translation failed: " ++ message))
  end.

(** [POST /translate] *)
Definition translate_text (request : TranslationRequest) : M TranslationResponse :=
  try_except (translate_try request) translate_except.

End Handler.

(** ** The client form, [frontend/app.py]

    What the form does with the current selections when the translate
    button is clicked (lines 182-197). *)

Module ClientForm.

Inductive Action : Type :=
| WarnSameLanguage
| WarnNoText
| Post (payload : TranslationBody).

(** The [disabled] flag of the button. *)
Definition button_disabled (text_to_translate source_lang target_lang : str) : bool :=
  negb (truthy (strip text_to_translate)) || bool_decide (source_lang = target_lang).

Definition on_translate (text_to_translate source_lang target_lang selected_model : str)
  : Action :=
  if bool_decide (source_lang = target_lang) then WarnSameLanguage
  else if negb (truthy (strip text_to_translate)) then WarnNoText
  else Post {| body_text := text_to_translate;
               body_source_language := source_lang;
               body_target_language := target_lang;
               body_model := Some (Some selected_model) |}.

End ClientForm.

(** ** Vocabulary of the specification *)

(** A code is supported when it is a key of the language table. *)
Definition supported (code : str) : Prop :=
  is_Some (SUPPORTED_LANGUAGES !! code).

(** The four validation errors and the configuration error. *)
Definition UnsupportedSource (code : str) : exn :=
  HTTPException 400 (lit "Source language '" ++ code ++ lit "' not supported").
Definition UnsupportedTarget (code : str) : exn :=
  HTTPException 400 (lit "Target language '" ++ code ++ lit "' not supported").
Definition EmptyText : exn :=
  HTTPException 400 (lit "Text cannot be empty").
Definition TextTooLong : exn :=
  HTTPException 400 (lit "Text too long (max 5000 characters)").
Definition KeyNotConfigured : exn :=
  HTTPException 500 (lit "OpenAI API key not configured").

(** ** Sample inputs *)

Module Sample.

Definition environ : gmap str str :=
  {[ lit "OPENAI_API_KEY" := lit "sk-test" ]}.

Definition globals : Globals := {| api_key := Some (lit "sk-test") |}.

(** A [repr] that quotes its argument; exact on the codes used below. *)
Definition quote (s : str) : str := lit "'" ++ s ++ lit "'".

Definition completion (s : str) : ChatCompletion :=
  {| choices := [ {| message := {| msg_content := Some s |} |} ] |}.

(** A stubbed API that answers every call with the same text. *)
Definition answers (s : str) : Log -> CompletionArgs -> PyResult ChatCompletion :=
  fun _ _ => Ok (completion s).

(** A stubbed API on which every call fails. *)
Definition fails (cls msg : str) : Log -> CompletionArgs -> PyResult ChatCompletion :=
  fun _ _ => Raise (PyException cls msg).

Definition request (txt src tgt : str) : TranslationRequest :=
  {| text := txt; source_language := src; target_language := tgt;
     model := Some default_model |}.

Definition hello : TranslationRequest := request (lit "Hello") (lit "en") (lit "fr").

(** 4999 letters followed by two spaces: 5001 characters, 4999 once trimmed. *)
Definition padded : str := repeat 97%N 4999 ++ lit "  ".

Definition exactly_5000 : str := repeat 97%N 5000.

End Sample.

(** What the handler makes of the outcome of the completion call, lines
    117-129: the first choice's content trimmed into a response, and any
    failure on the way through the [except] clause. *)
Definition after_call (request : TranslationRequest)
    (outcome : PyResult ChatCompletion) : PyResult TranslationResponse :=
  match outcome with
  | Raise (HTTPException status detail) => Raise (HTTPException status detail)
  | Raise (PyException _ message) =>
      Raise (HTTPException 500 (lit "Translation failed: " ++ message))
  | Ok response =>
      match choices response with
      | [] => Raise (HTTPException 500
                       (lit "Translation failed: list index out of range"))
      | c :: _ =>
          match msg_content (message c) with
          | None => Raise (HTTPException 500
                      (lit "Translation failed: 'NoneType' object has no attribute 'strip'"))
          | Some s =>
              Ok {| original_text := text request;
                    translated_text := strip s;
                    resp_source_language := source_language request;
                    resp_target_language := target_language request |}
          end
      end
  end.

(** ** The client's HTTP call, [frontend/app.py] lines 64-83 *)

Module Frontend.

(** A decoded JSON value, as [response.json()] returns it. A [JDict] lists
    the items of the Python dict, whose keys are distinct; a float is kept
    as its literal. *)
#[local] Set Warnings "-register-all".
Inductive json : Type :=
| JNull
| JBool (b : bool)
| JInt (z : Z)
| JFloat (literal : str)
| JStr (s : str)
| JList (items : list json)
| JDict (items : list (str * json)).

(** [type(v).__name__] *)
Definition type_name (v : json) : str :=
  match v with
  | JNull => lit "NoneType"
  | JBool _ => lit "bool"
  | JInt _ => lit "int"
  | JFloat _ => lit "float"
  | JStr _ => lit "str"
  | JList _ => lit "list"
  | JDict _ => lit "dict"
  end.

(** Exceptions on the client side: those of class
    [requests.exceptions.RequestException] and all others, each with the
    text [str(e)] gives. *)
Inductive failure : Type :=
| RequestException (message : str)
| OtherException (cls : str) (message : str).

Inductive ClientResult (A : Type) : Type :=
| Returned (a : A)
| Raised (e : failure).
Arguments Returned {A} a.
Arguments Raised {A} e.

(** A [requests.Response]: its status and what [response.json()] does. *)
Record Response : Type := {
  status_code : Z;
  json_result : ClientResult json
}.

(** The two dicts [translate_text] returns:
    [{"success": True, "data": ...}] and [{"success": False, "error": ...}]. *)
Inductive TranslateResult : Type :=
| Success (data : json)
| Failure (error : json).

Fixpoint dict_get (k : str) (items : list (str * json)) : option json :=
  match items with
  | [] => None
  | (k', v) :: rest => if decide (k = k') then Some v else dict_get k rest
  end.

(** [v.get(k, default)] *)
Definition get (v : json) (k : str) (default : json) : ClientResult json :=
  match v with
  | JDict items =>
      Returned (match dict_get k items with Some x => x | None => default end)
  | _ => Raised (OtherException (lit "AttributeError")
                   (lit "'" ++ type_name v ++ lit "' object has no attribute 'get'"))
  end.

Definition cbind {A B} (c : ClientResult A) (k : A -> ClientResult B)
  : ClientResult B :=
  match c with
  | Returned a => k a
  | Raised e => Raised e
  end.

(** [try: c  except requests.exceptions.RequestException as e: h e] *)
Definition try_except_request {A} (c : ClientResult A)
    (h : str -> ClientResult A) : ClientResult A :=
  match c with
  | Raised (RequestException message) => h message
  | _ => c
  end.

Section Client.

(** [st.secrets.get("API_BASE_URL", "http://localhost:8000")] *)
Variable API_BASE_URL : str.

(** [requests.post(url, json=payload, timeout=t)] *)
Variable post : str -> TranslationBody -> Z -> ClientResult Response.

Definition translate_text (txt source_lang target_lang model : str)
  : ClientResult TranslateResult :=
  try_except_request
    (let payload :=
       {| body_text := txt;
          body_source_language := source_lang;
          body_target_language := target_lang;
          body_model := Some (Some model) |} in
     cbind (post (API_BASE_URL ++ lit "/translate") payload 30) (fun response =>
     if status_code response =? 200 then
       cbind (json_result response) (fun data =>
       Returned (Success data))
     else
       cbind (json_result response) (fun body =>
       cbind (get body (lit "detail") (JStr (lit "Erreur inconnue")))
         (fun error_detail =>
       Returned (Failure error_detail)))))
    (fun message =>
       Returned (Failure (JStr (lit "Erreur de connexion: " ++ message)))).

End Client.



End Frontend.

(** * Properties *)

(** ** Strings *)

Lemma lstrip_nil_iff (s : str) : lstrip s = [] <-> forallb isspace s = true.
Proof.
  induction s as [|c s IH]; simpl; [tauto|].
  destruct (isspace c); simpl; [exact IH|].
  split; discriminate.
Qed.

Lemma lstrip_all_space (s : str) : forallb isspace s = true -> lstrip s = [].
Proof. apply lstrip_nil_iff. Qed.

Lemma lstrip_suffix (s : str) : exists p, s = p ++ lstrip s /\ forallb isspace p = true.
Proof.
  induction s as [|c s [p [Hs Hp]]]; simpl.
  - exists []. split; reflexivity.
  - destruct (isspace c) eqn:Hc.
    + exists (c :: p). simpl. rewrite Hc, Hp. split; [f_equal; exact Hs | reflexivity].
    + exists []. split; reflexivity.
Qed.

Lemma forallb_rev_space (s : str) : forallb isspace (rev s) = forallb isspace s.
Proof.
  induction s as [|c s IH]; simpl; [reflexivity|].
  rewrite forallb_app, IH. simpl. rewrite andb_true_r. apply andb_comm.
Qed.

(** [s.strip()] is empty exactly when every character of [s] is whitespace
    (the empty string included). *)
Lemma strip_nil_iff (s : str) : strip s = [] <-> forallb isspace s = true.
Proof.
  unfold strip, rstrip. split.
  - intros H.
    assert (Hr : lstrip (rev (lstrip s)) = []).
    { rewrite <- (rev_involutive (lstrip (rev (lstrip s)))), H. reflexivity. }
    apply lstrip_nil_iff in Hr. rewrite forallb_rev_space in Hr.
    destruct (lstrip_suffix s) as [p [Hs Hp]].
    rewrite Hs, forallb_app, Hp, Hr. reflexivity.
  - intros H. rewrite (lstrip_all_space s H). reflexivity.
Qed.

Lemma contains_supported (code : str) :
  contains SUPPORTED_LANGUAGES code = true <-> supported code.
Proof. unfold contains, supported. apply bool_decide_eq_true. Qed.

Lemma contains_unsupported (code : str) :
  contains SUPPORTED_LANGUAGES code = false <-> ~ supported code.
Proof. unfold contains, supported. apply bool_decide_eq_false. Qed.

(** A process that started has a non-empty key. *)
Lemma started_key_truthy (environ : gmap str str) (g : Globals) :
  module_init environ = Ok g -> truthy_opt (api_key g) = true.
Proof.
  unfold module_init. intros H.
  destruct (truthy_opt (getenv environ (lit "OPENAI_API_KEY"))) eqn:Hk;
    simpl in H; [|discriminate].
  injection H as <-. exact Hk.
Qed.

(** ** The handler, path by path *)

Section Paths.

Variable repr : str -> str.
Variable create : Log -> CompletionArgs -> PyResult ChatCompletion.
Variable g : Globals.
Hypothesis key_set : truthy_opt (api_key g) = true.

Variable request : TranslationRequest.
Variable log : Log.

Local Ltac unfold_handler :=
  unfold translate_text, translate_try; rewrite ?key_set.

Local Ltac run :=
  cbv beta iota zeta delta [try_except bind raise_if raise ret negb
                            getitem chat_completions_create].

Lemma path_unsupported_source :
  ~ supported (source_language request) ->
  translate_text repr create g request log
  = (Raise (UnsupportedSource (source_language request)), log).
Proof.
  intros Hs. apply contains_unsupported in Hs.
  unfold_handler. rewrite Hs. reflexivity.
Qed.

Lemma path_unsupported_target :
  supported (source_language request) ->
  ~ supported (target_language request) ->
  translate_text repr create g request log
  = (Raise (UnsupportedTarget (target_language request)), log).
Proof.
  intros Hs Ht. apply contains_supported in Hs. apply contains_unsupported in Ht.
  unfold_handler. rewrite Hs, Ht. reflexivity.
Qed.

Lemma path_empty_text :
  supported (source_language request) ->
  supported (target_language request) ->
  strip (text request) = [] ->
  translate_text repr create g request log = (Raise EmptyText, log).
Proof.
  intros Hs Ht He. apply contains_supported in Hs, Ht.
  unfold_handler. rewrite Hs, Ht, He. reflexivity.
Qed.

Lemma path_text_too_long :
  supported (source_language request) ->
  supported (target_language request) ->
  strip (text request) <> [] ->
  len (text request) > 5000 ->
  translate_text repr create g request log = (Raise TextTooLong, log).
Proof.
  intros Hs Ht He Hl. apply contains_supported in Hs, Ht.
  assert (Hn : truthy (strip (text request)) = true).
  { destruct (strip (text request)); [congruence | reflexivity]. }
  assert (Hg : (len (text request) >? 5000) = true) by (apply Z.gtb_lt; lia).
  unfold_handler. rewrite Hs, Ht, Hn, Hg. reflexivity.
Qed.

(** The arguments of the one call a valid request leads to. *)
Lemma path_valid (source_lang target_lang : str) :
  SUPPORTED_LANGUAGES !! source_language request = Some source_lang ->
  SUPPORTED_LANGUAGES !! target_language request = Some target_lang ->
  strip (text request) <> [] ->
  len (text request) <= 5000 ->
  let args :=
    {| arg_model := model request;
       arg_messages := messages_of (prompt_of source_lang target_lang (text request));
       arg_temperature := 0.3%Q;
       arg_max_tokens := 1000 |} in
  translate_text repr create g request log
  = (match create log args with
     | Raise e => fst (translate_except e log)
     | Ok response =>
         match choices response with
         | [] => Raise (HTTPException 500
                          (lit "Translation failed: list index out of range"))
         | c :: _ =>
             match msg_content (message c) with
             | None => Raise (HTTPException 500
                         (lit "Translation failed: 'NoneType' object has no attribute 'strip'"))
             | Some s =>
                 Ok {| original_text := text request;
                       translated_text := strip s;
                       resp_source_language := source_language request;
                       resp_target_language := target_language request |}
             end
         end
     end, log ++ [args]).
Proof.
  intros Hs Ht He Hl args.
  assert (Hcs : contains SUPPORTED_LANGUAGES (source_language request) = true).
  { apply contains_supported. unfold supported. rewrite Hs. eauto. }
  assert (Hct : contains SUPPORTED_LANGUAGES (target_language request) = true).
  { apply contains_supported. unfold supported. rewrite Ht. eauto. }
  assert (Hn : truthy (strip (text request)) = true).
  { destruct (strip (text request)); [congruence | reflexivity]. }
  assert (Hg : (len (text request) >? 5000) = false).
  { destruct (len (text request) >? 5000) eqn:E; [apply Z.gtb_lt in E; lia | reflexivity]. }
  unfold_handler. rewrite Hcs, Hct, Hn, Hg. unfold getitem. rewrite Hs, Ht.
  run. fold args. destruct (create log args) as [response | e].
  - unfold first_choice, content_strip, raise, ret.
    destruct (choices response) as [|c rest]; [reflexivity|].
    destruct (msg_content (message c)); reflexivity.
  - destruct e; reflexivity.
Qed.

End Paths.

(** ** Facts shared by the claims *)

Lemma supported_cases (code : str) : supported code \/ ~ supported code.
Proof.
  unfold supported. destruct (SUPPORTED_LANGUAGES !! code); [left; eauto|].
  right. intros [x Hx]. discriminate.
Qed.

Lemma supported_lookup (code : str) :
  supported code -> exists name, SUPPORTED_LANGUAGES !! code = Some name.
Proof. intros [name H]. exists name. exact H. Qed.

Lemma log_grows (log : Log) (a : CompletionArgs) : log ++ [a] <> log.
Proof.
  intros H. apply (f_equal (@length _)) in H.
  rewrite length_app in H. simpl in H. lia.
Qed.

Lemma sample_started : module_init Sample.environ = Ok Sample.globals.
Proof. vm_compute. reflexivity. Qed.

Lemma sample_supported_en : supported (lit "en").
Proof. unfold supported. vm_compute. eauto. Qed.

Lemma sample_supported_fr : supported (lit "fr").
Proof. unfold supported. vm_compute. eauto. Qed.

Lemma sample_unsupported_xx : ~ supported (lit "xx").
Proof. intros [x Hx]. vm_compute in Hx. discriminate. Qed.

(** ** Validation *)

(** C1. The handler checks, in this order, that the source code is
    supported, that the target code is supported, that the trimmed text is
    non-empty and that the untrimmed text has at most 5000 characters. The
    first check that fails gives the one error reported, with the call log
    untouched; the completion API is called exactly when all four pass. *)
Theorem validation_order
    (environ : gmap str str) (g : Globals) (repr : str -> str)
    (create : Log -> CompletionArgs -> PyResult ChatCompletion)
    (request : TranslationRequest) (log : Log) :
  module_init environ = Ok g ->
  let src := source_language request in
  let tgt := target_language request in
  let result := translate_text repr create g request log in
  (~ supported src ->
     result = (Raise (UnsupportedSource src), log)) /\
  (supported src -> ~ supported tgt ->
     result = (Raise (UnsupportedTarget tgt), log)) /\
  (supported src -> supported tgt -> strip (text request) = [] ->
     result = (Raise EmptyText, log)) /\
  (supported src -> supported tgt -> strip (text request) <> [] ->
   len (text request) > 5000 ->
     result = (Raise TextTooLong, log)) /\
  (snd result <> log <->
     supported src /\ supported tgt /\ strip (text request) <> [] /\
     len (text request) <= 5000).
Proof.
  intros Hinit src tgt result.
  pose proof (started_key_truthy _ _ Hinit) as Hkey.
  assert (H1 : ~ supported src -> result = (Raise (UnsupportedSource src), log)).
  { intros H. apply path_unsupported_source; assumption. }
  assert (H2 : supported src -> ~ supported tgt ->
               result = (Raise (UnsupportedTarget tgt), log)).
  { intros Hs Ht. apply path_unsupported_target; assumption. }
  assert (H3 : supported src -> supported tgt -> strip (text request) = [] ->
               result = (Raise EmptyText, log)).
  { intros Hs Ht He. apply path_empty_text; assumption. }
  assert (H4 : supported src -> supported tgt -> strip (text request) <> [] ->
               len (text request) > 5000 -> result = (Raise TextTooLong, log)).
  { intros Hs Ht He Hl. apply path_text_too_long; assumption. }
  split; [exact H1|]. split; [exact H2|]. split; [exact H3|].
  split; [exact H4|]. split.
  - intros Hlog.
    destruct (supported_cases src) as [Hs|Hs];
      [|rewrite (H1 Hs) in Hlog; contradiction].
    destruct (supported_cases tgt) as [Ht|Ht];
      [|rewrite (H2 Hs Ht) in Hlog; contradiction].
    destruct (list_eq_dec (strip (text request)) []) as [He|He];
      [rewrite (H3 Hs Ht He) in Hlog; contradiction|].
    destruct (Z_le_gt_dec (len (text request)) 5000) as [Hl|Hl];
      [|rewrite (H4 Hs Ht He Hl) in Hlog; contradiction].
    auto.
  - intros (Hs & Ht & He & Hl).
    destruct (supported_lookup _ Hs) as [sname Hsn].
    destruct (supported_lookup _ Ht) as [tname Htn].
    unfold result.
    rewrite (path_valid repr create g Hkey request log sname tname Hsn Htn He Hl).
    simpl. apply log_grows.
Qed.

(** An unsupported source is reported although the target is unsupported
    and the text is empty as well. *)
Lemma validation_order_witness :
  translate_text Sample.quote (Sample.answers (lit "Bonjour")) Sample.globals
    (Sample.request [] (lit "xx") (lit "yy")) []
  = (Raise (HTTPException 400 (lit "Source language 'xx' not supported")), []).
Proof.
  apply (validation_order Sample.environ Sample.globals Sample.quote
           (Sample.answers (lit "Bonjour"))
           (Sample.request [] (lit "xx") (lit "yy")) [] sample_started).
  exact sample_unsupported_xx.
Defined.

(** C4. With both codes supported, a text that is empty or holds only
    whitespace is rejected with status 400 and detail "Text cannot be
    empty", and the completion API is not called. *)
Theorem empty_text_rejected
    (environ : gmap str str) (g : Globals) (repr : str -> str)
    (create : Log -> CompletionArgs -> PyResult ChatCompletion)
    (request : TranslationRequest) (log : Log) :
  module_init environ = Ok g ->
  supported (source_language request) ->
  supported (target_language request) ->
  forallb isspace (text request) = true ->
  translate_text repr create g request log
  = (Raise (HTTPException 400 (lit "Text cannot be empty")), log).
Proof.
  intros Hinit Hs Ht Hw.
  apply (path_empty_text repr create g (started_key_truthy _ _ Hinit));
    [exact Hs | exact Ht | apply strip_nil_iff; exact Hw].
Qed.

(** A tab, a no-break space and a line feed between "en" and "fr". *)
Lemma empty_text_rejected_witness :
  translate_text Sample.quote (Sample.answers (lit "Bonjour")) Sample.globals
    (Sample.request [9%N; 160%N; 10%N] (lit "en") (lit "fr")) []
  = (Raise (HTTPException 400 (lit "Text cannot be empty")), []).
Proof.
  apply (empty_text_rejected Sample.environ Sample.globals Sample.quote
           (Sample.answers (lit "Bonjour"))
           (Sample.request [9%N; 160%N; 10%N] (lit "en") (lit "fr")) []
           sample_started sample_supported_en sample_supported_fr).
  reflexivity.
Defined.

(** C5. A code outside the supported set, used as the source, or as the
    target of a request whose source is supported, is rejected with status
    400 and a detail that quotes the code; the completion API is not
    called. *)
Theorem unsupported_language_rejected
    (environ : gmap str str) (g : Globals) (repr : str -> str)
    (create : Log -> CompletionArgs -> PyResult ChatCompletion)
    (request : TranslationRequest) (log : Log) (code : str) :
  module_init environ = Ok g ->
  ~ supported code ->
  (source_language request = code ->
     translate_text repr create g request log
     = (Raise (HTTPException 400
                 (lit "Source language '" ++ code ++ lit "' not supported")), log)) /\
  (supported (source_language request) -> target_language request = code ->
     translate_text repr create g request log
     = (Raise (HTTPException 400
                 (lit "Target language '" ++ code ++ lit "' not supported")), log)).
Proof.
  intros Hinit Hc. pose proof (started_key_truthy _ _ Hinit) as Hkey. split.
  - intros <-. apply path_unsupported_source; assumption.
  - intros Hs <-. apply path_unsupported_target; assumption.
Qed.

(** "xx" as the source of one request and as the target of another. *)
Lemma unsupported_language_rejected_witness :
  translate_text Sample.quote (Sample.answers (lit "Bonjour")) Sample.globals
    (Sample.request (lit "hi") (lit "xx") (lit "fr")) []
  = (Raise (HTTPException 400 (lit "Source language 'xx' not supported")), [])
  /\
  translate_text Sample.quote (Sample.answers (lit "Bonjour")) Sample.globals
    (Sample.request (lit "hi") (lit "en") (lit "xx")) []
  = (Raise (HTTPException 400 (lit "Target language 'xx' not supported")), []).
Proof.
  split.
  - apply (unsupported_language_rejected Sample.environ Sample.globals Sample.quote
             (Sample.answers (lit "Bonjour"))
             (Sample.request (lit "hi") (lit "xx") (lit "fr")) [] (lit "xx")
             sample_started sample_unsupported_xx).
    reflexivity.
  - apply (unsupported_language_rejected Sample.environ Sample.globals Sample.quote
             (Sample.answers (lit "Bonjour"))
             (Sample.request (lit "hi") (lit "en") (lit "xx")) [] (lit "xx")
             sample_started sample_unsupported_xx).
    + exact sample_supported_en.
    + reflexivity.
Defined.

(** C3. With both codes supported and a text that is not blank, a text of
    more than 5000 characters, counted before trimming, is rejected with
    status 400 and detail "Text too long (max 5000 characters)"; a text of
    at most 5000 characters, 5000 included, passes the check and the
    completion API is called. *)
Theorem length_bound_inclusive
    (environ : gmap str str) (g : Globals) (repr : str -> str)
    (create : Log -> CompletionArgs -> PyResult ChatCompletion)
    (request : TranslationRequest) (log : Log) :
  module_init environ = Ok g ->
  supported (source_language request) ->
  supported (target_language request) ->
  strip (text request) <> [] ->
  (len (text request) > 5000 ->
     translate_text repr create g request log
     = (Raise (HTTPException 400 (lit "Text too long (max 5000 characters)")), log)) /\
  (len (text request) <= 5000 ->
     exists args,
       snd (translate_text repr create g request log) = log ++ [args]).
Proof.
  intros Hinit Hs Ht He. pose proof (started_key_truthy _ _ Hinit) as Hkey. split.
  - intros Hl. apply path_text_too_long; assumption.
  - intros Hl.
    destruct (supported_lookup _ Hs) as [sname Hsn].
    destruct (supported_lookup _ Ht) as [tname Htn].
    rewrite (path_valid repr create g Hkey request log sname tname Hsn Htn He Hl).
    simpl. eexists. reflexivity.
Qed.

Lemma sample_padded_not_blank : strip Sample.padded <> [].
Proof. intros H. vm_compute in H. discriminate. Qed.

Lemma sample_5000_not_blank : strip Sample.exactly_5000 <> [].
Proof. intros H. vm_compute in H. discriminate. Qed.

(** 5001 characters of which 4999 remain after trimming are too long; 5000
    characters are not. *)
Lemma length_bound_inclusive_witness :
  translate_text Sample.quote (Sample.answers (lit "Bonjour")) Sample.globals
    (Sample.request Sample.padded (lit "en") (lit "fr")) []
  = (Raise (HTTPException 400 (lit "Text too long (max 5000 characters)")), [])
  /\
  exists args,
    snd (translate_text Sample.quote (Sample.answers (lit "Bonjour")) Sample.globals
           (Sample.request Sample.exactly_5000 (lit "en") (lit "fr")) [])
    = [] ++ [args].
Proof.
  split.
  - apply (length_bound_inclusive Sample.environ Sample.globals Sample.quote
             (Sample.answers (lit "Bonjour"))
             (Sample.request Sample.padded (lit "en") (lit "fr")) []
             sample_started sample_supported_en sample_supported_fr
             sample_padded_not_blank).
    vm_compute. reflexivity.
  - apply (length_bound_inclusive Sample.environ Sample.globals Sample.quote
             (Sample.answers (lit "Bonjour"))
             (Sample.request Sample.exactly_5000 (lit "en") (lit "fr")) []
             sample_started sample_supported_en sample_supported_fr
             sample_5000_not_blank).
    vm_compute. discriminate.
Defined.

(** ** The successful path *)

(** C2. Whenever the handler returns a response, the completion API
    answered the one call made with a completion that has a first choice
    with a text content, and the response holds the request's text
    unchanged, that content trimmed, and the request's two language codes
    as received, whatever the API returned. *)
Theorem success_response_shape
    (environ : gmap str str) (g : Globals) (repr : str -> str)
    (create : Log -> CompletionArgs -> PyResult ChatCompletion)
    (request : TranslationRequest) (log log' : Log)
    (response : TranslationResponse) :
  module_init environ = Ok g ->
  translate_text repr create g request log = (Ok response, log') ->
  exists args completion first rest s,
    log' = log ++ [args] /\
    create log args = Ok completion /\
    choices completion = first :: rest /\
    msg_content (message first) = Some s /\
    response = {| original_text := text request;
                  translated_text := strip s;
                  resp_source_language := source_language request;
                  resp_target_language := target_language request |}.
Proof.
  intros Hinit Hrun. pose proof (started_key_truthy _ _ Hinit) as Hkey.
  destruct (supported_cases (source_language request)) as [Hs|Hs];
    [|rewrite (path_unsupported_source repr create g Hkey request log Hs) in Hrun;
      discriminate].
  destruct (supported_cases (target_language request)) as [Ht|Ht];
    [|rewrite (path_unsupported_target repr create g Hkey request log Hs Ht) in Hrun;
      discriminate].
  destruct (list_eq_dec (strip (text request)) []) as [He|He];
    [rewrite (path_empty_text repr create g Hkey request log Hs Ht He) in Hrun;
     discriminate|].
  destruct (Z_le_gt_dec (len (text request)) 5000) as [Hl|Hl];
    [|rewrite (path_text_too_long repr create g Hkey request log Hs Ht He Hl) in Hrun;
      discriminate].
  destruct (supported_lookup _ Hs) as [sname Hsn].
  destruct (supported_lookup _ Ht) as [tname Htn].
  rewrite (path_valid repr create g Hkey request log sname tname Hsn Htn He Hl)
    in Hrun.
  cbv zeta in Hrun.
  match type of Hrun with
  | context [create log ?a] => set (args := a) in *
  end.
  destruct (create log args) as [completion|e] eqn:Hc.
  - destruct (choices completion) as [|first rest] eqn:Hch; [discriminate|].
    destruct (msg_content (message first)) as [s|] eqn:Hm; [|discriminate].
    injection Hrun as <- <-.
    exists args, completion, first, rest, s. repeat split; assumption.
  - destruct e; discriminate.
Qed.

(** The request "Hello" from "en" to "fr" against an API that answers
    " Bonjour" followed by a line feed. *)
Lemma success_response_shape_witness :
  exists args completion first rest s,
    [ {| arg_model := Some default_model;
         arg_messages :=
           messages_of (prompt_of (lit "English") (lit "French") (lit "Hello"));
         arg_temperature := 0.3%Q;
         arg_max_tokens := 1000 |} ] = [] ++ [args] /\
    Sample.answers (32%N :: lit "Bonjour" ++ LF) [] args = Ok completion /\
    choices completion = first :: rest /\
    msg_content (message first) = Some s /\
    {| original_text := lit "Hello";
       translated_text := lit "Bonjour";
       resp_source_language := lit "en";
       resp_target_language := lit "fr" |}
    = {| original_text := text Sample.hello;
         translated_text := strip s;
         resp_source_language := source_language Sample.hello;
         resp_target_language := target_language Sample.hello |}.
Proof.
  apply (success_response_shape Sample.environ Sample.globals Sample.quote
           (Sample.answers (32%N :: lit "Bonjour" ++ LF)) Sample.hello
           [] _ _ sample_started).
  vm_compute. reflexivity.
Defined.

(** The scenario of the specification, evaluated: "Hello" from "en" to
    "fr" against an API that answers "Bonjour". *)
Example scenario_hello_bonjour :
  fst (translate_text Sample.quote (Sample.answers (lit "Bonjour")) Sample.globals
         Sample.hello [])
  = Ok {| original_text := lit "Hello";
          translated_text := lit "Bonjour";
          resp_source_language := lit "en";
          resp_target_language := lit "fr" |}.
Proof. vm_compute. reflexivity. Qed.

(** ** The call to the completion API *)

(** C6. The two messages sent depend on the text, the source code and the
    target code only: two valid requests that agree on these three fields
    lead to the same messages, whatever the model, the API, the earlier
    calls and the key are. The first message is the fixed persona under
    the role "system"; the second, under the role "user", is the fixed
    instruction with the two display names and the text put in as they
    are. *)
Theorem prompt_deterministic
    (environ1 environ2 : gmap str str) (g1 g2 : Globals)
    (repr1 repr2 : str -> str)
    (create1 create2 : Log -> CompletionArgs -> PyResult ChatCompletion)
    (request1 request2 : TranslationRequest) (log1 log2 : Log) :
  module_init environ1 = Ok g1 ->
  module_init environ2 = Ok g2 ->
  text request1 = text request2 ->
  source_language request1 = source_language request2 ->
  target_language request1 = target_language request2 ->
  supported (source_language request1) ->
  supported (target_language request1) ->
  strip (text request1) <> [] ->
  len (text request1) <= 5000 ->
  exists source_lang target_lang args1 args2,
    SUPPORTED_LANGUAGES !! source_language request1 = Some source_lang /\
    SUPPORTED_LANGUAGES !! target_language request1 = Some target_lang /\
    snd (translate_text repr1 create1 g1 request1 log1) = log1 ++ [args1] /\
    snd (translate_text repr2 create2 g2 request2 log2) = log2 ++ [args2] /\
    arg_messages args1 = arg_messages args2 /\
    arg_messages args1 =
      [ {| role := lit "system";
           content := lit "You are a professional translator. Provide accurate and natural translations." |};
        {| role := lit "user";
           content :=
             LF ++
             lit "        Translate the following text from " ++ source_lang ++
             lit " to " ++ target_lang ++ lit "." ++ LF ++
             lit "        Provide only the translation without any additional explanation or formatting." ++ LF ++
             lit "        " ++ LF ++
             lit "        Text to translate: " ++ text request1 ++ LF ++
             lit "        " |} ].
Proof.
  intros Hi1 Hi2 Etxt Esrc Etgt Hs Ht He Hl.
  pose proof (started_key_truthy _ _ Hi1) as Hk1.
  pose proof (started_key_truthy _ _ Hi2) as Hk2.
  destruct (supported_lookup _ Hs) as [sname Hsn].
  destruct (supported_lookup _ Ht) as [tname Htn].
  pose proof (path_valid repr1 create1 g1 Hk1 request1 log1 sname tname
                Hsn Htn He Hl) as R1.
  assert (Hsn2 : SUPPORTED_LANGUAGES !! source_language request2 = Some sname)
    by (rewrite <- Esrc; exact Hsn).
  assert (Htn2 : SUPPORTED_LANGUAGES !! target_language request2 = Some tname)
    by (rewrite <- Etgt; exact Htn).
  assert (He2 : strip (text request2) <> []) by (rewrite <- Etxt; exact He).
  assert (Hl2 : len (text request2) <= 5000) by (rewrite <- Etxt; exact Hl).
  pose proof (path_valid repr2 create2 g2 Hk2 request2 log2 sname tname
                Hsn2 Htn2 He2 Hl2) as R2.
  cbv zeta in R1, R2.
  exists sname, tname.
  eexists. eexists.
  split; [exact Hsn|]. split; [exact Htn|].
  split; [rewrite R1; reflexivity|].
  split; [rewrite R2; reflexivity|].
  simpl arg_messages. rewrite <- Etxt. split; reflexivity.
Qed.

(** "Hello" from "en" to "fr", once with the default model on a fresh log
    against an API that answers, once with another model, after an earlier
    call, against an API that fails. *)
Lemma prompt_deterministic_witness :
  exists source_lang target_lang args1 args2,
    SUPPORTED_LANGUAGES !! lit "en" = Some source_lang /\
    SUPPORTED_LANGUAGES !! lit "fr" = Some target_lang /\
    snd (translate_text Sample.quote (Sample.answers (lit "Bonjour"))
           Sample.globals Sample.hello [])
    = [] ++ [args1] /\
    snd (translate_text id (Sample.fails (lit "APIConnectionError") (lit "Connection error."))
           {| api_key := Some (lit "sk-other") |}
           {| text := lit "Hello"; source_language := lit "en";
              target_language := lit "fr"; model := Some (lit "gpt-4") |}
           [ {| arg_model := None; arg_messages := [];
                arg_temperature := 0.3%Q; arg_max_tokens := 1000 |} ])
    = [ {| arg_model := None; arg_messages := [];
           arg_temperature := 0.3%Q; arg_max_tokens := 1000 |} ] ++ [args2] /\
    arg_messages args1 = arg_messages args2 /\
    arg_messages args1 =
      [ {| role := lit "system";
           content := lit "You are a professional translator. Provide accurate and natural translations." |};
        {| role := lit "user";
           content :=
             LF ++
             lit "        Translate the following text from " ++ source_lang ++
             lit " to " ++ target_lang ++ lit "." ++ LF ++
             lit "        Provide only the translation without any additional explanation or formatting." ++ LF ++
             lit "        " ++ LF ++
             lit "        Text to translate: " ++ lit "Hello" ++ LF ++
             lit "        " |} ].
Proof.
  apply (prompt_deterministic
           Sample.environ {[ lit "OPENAI_API_KEY" := lit "sk-other" ]}
           Sample.globals {| api_key := Some (lit "sk-other") |}
           Sample.quote id
           (Sample.answers (lit "Bonjour"))
           (Sample.fails (lit "APIConnectionError") (lit "Connection error."))
           Sample.hello
           {| text := lit "Hello"; source_language := lit "en";
              target_language := lit "fr"; model := Some (lit "gpt-4") |}).
  - exact sample_started.
  - vm_compute. reflexivity.
  - reflexivity.
  - reflexivity.
  - reflexivity.
  - exact sample_supported_en.
  - exact sample_supported_fr.
  - intros H. vm_compute in H. discriminate.
  - vm_compute. discriminate.
Defined.

(** C7. A request that passes validation leads to exactly one call of the
    completion API. Its model is the request's model field, which is
    "gpt-3.5-turbo" when the body leaves the field out; its messages are
    two, the first of role "system" and the second of role "user"; its
    temperature is 0.3 and its token cap is 1000. *)
Theorem external_call_arguments
    (environ : gmap str str) (g : Globals) (repr : str -> str)
    (create : Log -> CompletionArgs -> PyResult ChatCompletion)
    (body : TranslationBody) (log : Log) :
  let request := parse_request body in
  module_init environ = Ok g ->
  supported (source_language request) ->
  supported (target_language request) ->
  strip (text request) <> [] ->
  len (text request) <= 5000 ->
  model request = match body_model body with
                  | None => Some (lit "gpt-3.5-turbo")
                  | Some given => given
                  end /\
  exists system_text user_text,
    snd (translate_text repr create g request log)
    = log ++ [ {| arg_model := model request;
                  arg_messages :=
                    [ {| role := lit "system"; content := system_text |};
                      {| role := lit "user"; content := user_text |} ];
                  arg_temperature := 3 # 10;
                  arg_max_tokens := 1000 |} ].
Proof.
  intros request Hinit Hs Ht He Hl.
  pose proof (started_key_truthy _ _ Hinit) as Hkey.
  split; [destruct body as [? ? ? [m|]]; reflexivity|].
  destruct (supported_lookup _ Hs) as [sname Hsn].
  destruct (supported_lookup _ Ht) as [tname Htn].
  rewrite (path_valid repr create g Hkey request log sname tname Hsn Htn He Hl).
  eexists. eexists. reflexivity.
Qed.

(** A body without a model field. *)
Lemma external_call_arguments_witness :
  model (parse_request
           {| body_text := lit "Hello"; body_source_language := lit "en";
              body_target_language := lit "fr"; body_model := None |})
  = Some (lit "gpt-3.5-turbo") /\
  exists system_text user_text,
    snd (translate_text Sample.quote (Sample.answers (lit "Bonjour")) Sample.globals
           (parse_request
              {| body_text := lit "Hello"; body_source_language := lit "en";
                 body_target_language := lit "fr"; body_model := None |}) [])
    = [] ++ [ {| arg_model := Some (lit "gpt-3.5-turbo");
                 arg_messages :=
                   [ {| role := lit "system"; content := system_text |};
                     {| role := lit "user"; content := user_text |} ];
                 arg_temperature := 3 # 10;
                 arg_max_tokens := 1000 |} ].
Proof.
  apply (external_call_arguments Sample.environ Sample.globals Sample.quote
           (Sample.answers (lit "Bonjour"))
           {| body_text := lit "Hello"; body_source_language := lit "en";
              body_target_language := lit "fr"; body_model := None |} []
           sample_started sample_supported_en sample_supported_fr).
  - intros H. vm_compute in H. discriminate.
  - vm_compute. discriminate.
Defined.

(** C8. A request whose source and target are the same supported code,
    with a valid text, passes validation: the completion API is called
    with a prompt that names the one language twice, and a completion
    with a text content is returned as a response. Only the client form
    refuses such a pair: its button is disabled and a click gives the
    same-language warning. *)
Theorem same_language_accepted
    (environ : gmap str str) (g : Globals) (repr : str -> str)
    (create : Log -> CompletionArgs -> PyResult ChatCompletion)
    (request : TranslationRequest) (log : Log)
    (code name selected_model : str) :
  module_init environ = Ok g ->
  SUPPORTED_LANGUAGES !! code = Some name ->
  source_language request = code ->
  target_language request = code ->
  strip (text request) <> [] ->
  len (text request) <= 5000 ->
  let args :=
    {| arg_model := model request;
       arg_messages := messages_of (prompt_of name name (text request));
       arg_temperature := 0.3%Q;
       arg_max_tokens := 1000 |} in
  snd (translate_text repr create g request log) = log ++ [args] /\
  (forall completion first rest s,
     create log args = Ok completion ->
     choices completion = first :: rest ->
     msg_content (message first) = Some s ->
     fst (translate_text repr create g request log)
     = Ok {| original_text := text request;
             translated_text := strip s;
             resp_source_language := code;
             resp_target_language := code |}) /\
  ClientForm.button_disabled (text request) code code = true /\
  ClientForm.on_translate (text request) code code selected_model
  = ClientForm.WarnSameLanguage.
Proof.
  intros Hinit Hn Hsrc Htgt He Hl args.
  pose proof (started_key_truthy _ _ Hinit) as Hkey.
  assert (Hsn : SUPPORTED_LANGUAGES !! source_language request = Some name)
    by (rewrite Hsrc; exact Hn).
  assert (Htn : SUPPORTED_LANGUAGES !! target_language request = Some name)
    by (rewrite Htgt; exact Hn).
  rewrite (path_valid repr create g Hkey request log name name Hsn Htn He Hl).
  fold args. simpl fst. simpl snd.
  split; [reflexivity|]. split.
  - intros completion first rest s Hc Hch Hm.
    rewrite Hc, Hch, Hm, Hsrc, Htgt. reflexivity.
  - unfold ClientForm.button_disabled, ClientForm.on_translate.
    rewrite bool_decide_eq_true_2 by reflexivity.
    split; [apply orb_true_r | reflexivity].
Qed.

(** "Hello" from "en" to "en". *)
Lemma same_language_accepted_witness :
  fst (translate_text Sample.quote (Sample.answers (lit "Hello")) Sample.globals
         (Sample.request (lit "Hello") (lit "en") (lit "en")) [])
  = Ok {| original_text := lit "Hello";
          translated_text := strip (lit "Hello");
          resp_source_language := lit "en";
          resp_target_language := lit "en" |}.
Proof.
  refine (proj1 (proj2
    (same_language_accepted Sample.environ Sample.globals Sample.quote
       (Sample.answers (lit "Hello"))
       (Sample.request (lit "Hello") (lit "en") (lit "en")) []
       (lit "en") (lit "English") (lit "gpt-4")
       sample_started _ eq_refl eq_refl _ _))
    (Sample.completion (lit "Hello"))
    {| message := {| msg_content := Some (lit "Hello") |} |} []
    (lit "Hello") eq_refl eq_refl eq_refl).
  - vm_compute. reflexivity.
  - intros H. vm_compute in H. discriminate.
  - vm_compute. discriminate.
Defined.

(** ** Failures *)

(** C9. Nothing but an [HTTPException] leaves the handler. A failure of
    any other class inside the [try] block is turned into status 500 with
    detail "Translation failed: " followed by the failure's message; an
    [HTTPException] raised there is raised again as it is. In particular,
    when the call made for a valid request fails with an exception that is
    not an [HTTPException], the handler answers 500 with that detail. *)
Theorem failures_become_http_errors
    (environ : gmap str str) (g : Globals) (repr : str -> str)
    (create : Log -> CompletionArgs -> PyResult ChatCompletion)
    (request : TranslationRequest) (log : Log) :
  module_init environ = Ok g ->
  (forall e log',
     translate_text repr create g request log = (Raise e, log') ->
     isinstance_HTTPException e = true) /\
  (forall cls msg log',
     translate_try repr create g request log = (Raise (PyException cls msg), log') ->
     translate_text repr create g request log
     = (Raise (HTTPException 500 (lit "Translation failed: " ++ msg)), log')) /\
  (forall status detail log',
     translate_try repr create g request log
     = (Raise (HTTPException status detail), log') ->
     translate_text repr create g request log
     = (Raise (HTTPException status detail), log')) /\
  (forall source_lang target_lang cls msg,
     SUPPORTED_LANGUAGES !! source_language request = Some source_lang ->
     SUPPORTED_LANGUAGES !! target_language request = Some target_lang ->
     strip (text request) <> [] ->
     len (text request) <= 5000 ->
     let args :=
       {| arg_model := model request;
          arg_messages :=
            messages_of (prompt_of source_lang target_lang (text request));
          arg_temperature := 0.3%Q;
          arg_max_tokens := 1000 |} in
     create log args = Raise (PyException cls msg) ->
     translate_text repr create g request log
     = (Raise (HTTPException 500 (lit "Translation failed: " ++ msg)),
        log ++ [args])).
Proof.
  intros Hinit. pose proof (started_key_truthy _ _ Hinit) as Hkey.
  split; [|split; [|split]].
  - intros e log' H. unfold translate_text, try_except in H.
    destruct (translate_try repr create g request log) as [[a|e0] l0];
      [discriminate|].
    destruct e0; simpl in H; injection H as <- _; reflexivity.
  - intros cls msg log' H. unfold translate_text, try_except.
    rewrite H. reflexivity.
  - intros status detail log' H. unfold translate_text, try_except.
    rewrite H. reflexivity.
  - intros sname tname cls msg Hsn Htn He Hl args Hc.
    rewrite (path_valid repr create g Hkey request log sname tname Hsn Htn He Hl).
    fold args. rewrite Hc. reflexivity.
Qed.

(** A network error of the API on "Hello" from "en" to "fr". *)
Lemma failures_become_http_errors_witness :
  fst (translate_text Sample.quote
         (Sample.fails (lit "APIConnectionError") (lit "Connection error."))
         Sample.globals Sample.hello [])
  = Raise (HTTPException 500 (lit "Translation failed: Connection error.")).
Proof.
  rewrite (proj2 (proj2 (proj2
    (failures_become_http_errors Sample.environ Sample.globals Sample.quote
       (Sample.fails (lit "APIConnectionError") (lit "Connection error."))
       Sample.hello [] sample_started)))
    (lit "English") (lit "French")
    (lit "APIConnectionError") (lit "Connection error.")).
  - reflexivity.
  - vm_compute. reflexivity.
  - vm_compute. reflexivity.
  - intros H. vm_compute in H. discriminate.
  - vm_compute. discriminate.
  - reflexivity.
Defined.

(** C10. In a process that started, the key is a non-empty string, so the
    guard of the handler's first branch is false and the branch raises
    nothing; without such a key the module does not load. A call can end
    with status 500 and detail "OpenAI API key not configured" only by
    handing on that very exception from the completion client, so with a
    client that raises no [HTTPException] no call ends with it. *)
Theorem key_branch_unreachable
    (environ : gmap str str) (g : Globals) (repr : str -> str)
    (create : Log -> CompletionArgs -> PyResult ChatCompletion)
    (request : TranslationRequest) (log : Log) :
  module_init environ = Ok g ->
  (exists key, api_key g = Some key /\ key <> [] /\
               getenv environ (lit "OPENAI_API_KEY") = Some key) /\
  raise_if (negb (truthy_opt (api_key g))) KeyNotConfigured log = (Ok tt, log) /\
  (fst (translate_text repr create g request log)
   = Raise (HTTPException 500 (lit "OpenAI API key not configured")) ->
   exists args,
     snd (translate_text repr create g request log) = log ++ [args] /\
     create log args
     = Raise (HTTPException 500 (lit "OpenAI API key not configured"))) /\
  ((forall l a status detail, create l a <> Raise (HTTPException status detail)) ->
   fst (translate_text repr create g request log)
   <> Raise (HTTPException 500 (lit "OpenAI API key not configured"))).
Proof.
  intros Hinit. pose proof (started_key_truthy _ _ Hinit) as Hkey.
  assert (Hrelay :
    fst (translate_text repr create g request log) = Raise KeyNotConfigured ->
    exists args,
      snd (translate_text repr create g request log) = log ++ [args] /\
      create log args = Raise KeyNotConfigured).
  { intros H.
    destruct (supported_cases (source_language request)) as [Hs|Hs];
      [|rewrite (path_unsupported_source repr create g Hkey request log Hs) in H;
        discriminate].
    destruct (supported_cases (target_language request)) as [Ht|Ht];
      [|rewrite (path_unsupported_target repr create g Hkey request log Hs Ht) in H;
        discriminate].
    destruct (list_eq_dec (strip (text request)) []) as [He|He];
      [rewrite (path_empty_text repr create g Hkey request log Hs Ht He) in H;
       discriminate|].
    destruct (Z_le_gt_dec (len (text request)) 5000) as [Hl|Hl];
      [|rewrite (path_text_too_long repr create g Hkey request log Hs Ht He Hl) in H;
        discriminate].
    destruct (supported_lookup _ Hs) as [sname Hsn].
    destruct (supported_lookup _ Ht) as [tname Htn].
    rewrite (path_valid repr create g Hkey request log sname tname Hsn Htn He Hl)
      in H |- *.
    cbv zeta in H |- *. simpl fst in H. simpl snd.
    eexists. split; [reflexivity|].
    destruct (create log _) as [completion|e].
    - destruct (choices completion) as [|first rest]; [discriminate|].
      destruct (msg_content (message first)); discriminate.
    - destruct e as [status detail|cls msg]; simpl in H.
      + injection H as -> ->. reflexivity.
      + discriminate. }
  split; [|split; [|split]].
  - unfold module_init in Hinit.
    destruct (getenv environ (lit "OPENAI_API_KEY")) as [key|] eqn:Hg;
      simpl in Hinit; [|discriminate].
    destruct key as [|c key]; simpl in Hinit; [discriminate|].
    injection Hinit as <-. exists (c :: key). simpl.
    repeat split; [discriminate].
  - rewrite Hkey. reflexivity.
  - exact Hrelay.
  - intros Hclient H. destruct (Hrelay H) as [args [_ Hc]].
    exact (Hclient _ _ _ _ Hc).
Qed.

(** With the sample key and an API that answers, the guard lets the call
    through. *)
Lemma key_branch_unreachable_witness :
  raise_if (negb (truthy_opt (api_key Sample.globals))) KeyNotConfigured []
  = (Ok tt, []).
Proof.
  exact (proj1 (proj2
    (key_branch_unreachable Sample.environ Sample.globals Sample.quote
       (Sample.answers (lit "Bonjour")) Sample.hello [] sample_started))).
Defined.

(** A process whose environment lacks the key, or holds an empty one, does
    not start. *)
Lemma module_init_refuses (environ : gmap str str) :
  getenv environ (lit "OPENAI_API_KEY") = None \/
  getenv environ (lit "OPENAI_API_KEY") = Some [] ->
  module_init environ
  = Raise (PyException (lit "ValueError")
             (lit "OPENAI_API_KEY environment variable is required")).
Proof. unfold module_init. intros [-> | ->]; reflexivity. Qed.

(** * Further properties of the backend *)

(** ** Trimming *)

Lemma lstrip_head (s : str) (c : N) (r : str) :
  lstrip s = c :: r -> isspace c = false.
Proof.
  induction s as [|a s IH]; simpl; [discriminate|].
  destruct (isspace a) eqn:Ha; [exact IH|].
  intros H. injection H as <- _. exact Ha.
Qed.

Lemma lstrip_idempotent (s : str) : lstrip (lstrip s) = lstrip s.
Proof.
  destruct (lstrip s) as [|c r] eqn:E; [reflexivity|].
  simpl. rewrite (lstrip_head s c r E). reflexivity.
Qed.

Lemma lstrip_snoc (s : str) (c : N) :
  isspace c = false -> lstrip (s ++ [c]) = lstrip s ++ [c].
Proof.
  intros Hc. induction s as [|a s IH]; simpl.
  - rewrite Hc. reflexivity.
  - destruct (isspace a); [exact IH | reflexivity].
Qed.

Lemma rstrip_cons (c : N) (s : str) :
  isspace c = false -> rstrip (c :: s) = c :: rstrip s.
Proof.
  intros Hc. unfold rstrip. simpl rev.
  rewrite (lstrip_snoc (rev s) c Hc), rev_app_distr. reflexivity.
Qed.

(** A trimmed string has no whitespace left at either end. *)
Lemma strip_trimmed (s : str) :
  lstrip (strip s) = strip s /\ rstrip (strip s) = strip s.
Proof.
  unfold strip. split.
  - destruct (lstrip s) as [|c r] eqn:E; [reflexivity|].
    pose proof (lstrip_head s c r E) as Hc.
    rewrite (rstrip_cons c r Hc). simpl. rewrite Hc. reflexivity.
  - unfold rstrip. rewrite rev_involutive, lstrip_idempotent. reflexivity.
Qed.

(** ** The handler in one equation *)

(** Whatever the API and the earlier calls are, a request either fails
    before the call with an error of its own, or leads to one call whose
    arguments are fixed by the request and whose outcome is shaped by
    [after_call]. *)
Lemma handler_cases (repr : str -> str) (g : Globals)
    (request : TranslationRequest) :
  (exists e,
     forall create log,
       translate_text repr create g request log = (Raise e, log)) \/
  (exists source_lang target_lang,
     truthy_opt (api_key g) = true /\
     SUPPORTED_LANGUAGES !! source_language request = Some source_lang /\
     SUPPORTED_LANGUAGES !! target_language request = Some target_lang /\
     strip (text request) <> [] /\
     len (text request) <= 5000 /\
     forall create log,
       let args :=
         {| arg_model := model request;
            arg_messages :=
              messages_of (prompt_of source_lang target_lang (text request));
            arg_temperature := 0.3%Q;
            arg_max_tokens := 1000 |} in
       translate_text repr create g request log
       = (after_call request (create log args), log ++ [args])).
Proof.
  destruct (truthy_opt (api_key g)) eqn:Hk.
  2:{ left. eexists. intros create log.
      unfold translate_text, translate_try. rewrite Hk. reflexivity. }
  destruct (supported_cases (source_language request)) as [Hs|Hs].
  2:{ left. eexists. intros create log.
      apply path_unsupported_source; assumption. }
  destruct (supported_cases (target_language request)) as [Ht|Ht].
  2:{ left. eexists. intros create log.
      apply path_unsupported_target; assumption. }
  destruct (list_eq_dec (strip (text request)) []) as [He|He].
  1:{ left. eexists. intros create log.
      apply path_empty_text; assumption. }
  destruct (Z_le_gt_dec (len (text request)) 5000) as [Hl|Hl].
  2:{ left. eexists. intros create log.
      apply path_text_too_long; assumption. }
  destruct (supported_lookup _ Hs) as [sname Hsn].
  destruct (supported_lookup _ Ht) as [tname Htn].
  right. exists sname, tname.
  split; [reflexivity|]. split; [exact Hsn|]. split; [exact Htn|].
  split; [exact He|]. split; [exact Hl|].
  intros create log args.
  rewrite (path_valid repr create g Hk request log sname tname Hsn Htn He Hl).
  fold args. unfold after_call.
  destruct (create log args) as [response|[status detail|cls msg]]; reflexivity.
Qed.

(** ** Calls to the completion API *)

(** X1. Handling a request leaves the earlier entries of the call log as
    they are and adds at most one call: there is no retry, whatever the
    request, the key and the API are. *)
Theorem at_most_one_call
    (repr : str -> str)
    (create : Log -> CompletionArgs -> PyResult ChatCompletion)
    (g : Globals) (request : TranslationRequest) (log : Log) :
  exists calls,
    snd (translate_text repr create g request log) = log ++ calls /\
    (length calls <= 1)%nat.
Proof.
  destruct (handler_cases repr g request)
    as [[e H] | (sname & tname & _ & _ & _ & _ & _ & H)].
  - exists []. rewrite (H create log). simpl. rewrite app_nil_r. split; [reflexivity | lia].
  - eexists [_]. rewrite (H create log). simpl. split; [reflexivity | lia].
Qed.

(** X2. The handler keeps no state of its own: when the API answers alike
    after two histories, the same request has the same outcome and adds the
    same calls after both. *)
Theorem outcome_independent_of_history
    (repr : str -> str)
    (create : Log -> CompletionArgs -> PyResult ChatCompletion)
    (g : Globals) (request : TranslationRequest) (log1 log2 : Log) :
  (forall args, create log1 args = create log2 args) ->
  fst (translate_text repr create g request log1)
  = fst (translate_text repr create g request log2) /\
  exists calls,
    snd (translate_text repr create g request log1) = log1 ++ calls /\
    snd (translate_text repr create g request log2) = log2 ++ calls.
Proof.
  intros Hsame.
  destruct (handler_cases repr g request)
    as [[e H] | (sname & tname & _ & _ & _ & _ & _ & H)].
  - rewrite (H create log1), (H create log2). simpl.
    split; [reflexivity|]. exists []. rewrite !app_nil_r. split; reflexivity.
  - rewrite (H create log1), (H create log2). simpl. rewrite Hsame.
    split; [reflexivity|]. eexists [_]. split; reflexivity.
Qed.

(** "Hello" handled on a fresh log and after an earlier call. *)
Lemma outcome_independent_of_history_witness :
  fst (translate_text Sample.quote (Sample.answers (lit "Bonjour")) Sample.globals
         Sample.hello [])
  = fst (translate_text Sample.quote (Sample.answers (lit "Bonjour")) Sample.globals
           Sample.hello
           [ {| arg_model := None; arg_messages := [];
                arg_temperature := 0.3%Q; arg_max_tokens := 1000 |} ]).
Proof.
  apply (outcome_independent_of_history Sample.quote
           (Sample.answers (lit "Bonjour")) Sample.globals Sample.hello []
           [ {| arg_model := None; arg_messages := [];
                arg_temperature := 0.3%Q; arg_max_tokens := 1000 |} ]).
  intros args. reflexivity.
Defined.

(** ** Completions the handler cannot use *)

(** X3. When the API answers a valid request with a completion that has no
    choice, or whose first choice has no text content, the handler answers
    500 with detail "Translation failed: list index out of range",
    respectively "Translation failed: 'NoneType' object has no attribute
    'strip'"; the call has been made. *)
Theorem malformed_completion_reported
    (environ : gmap str str) (g : Globals) (repr : str -> str)
    (create : Log -> CompletionArgs -> PyResult ChatCompletion)
    (request : TranslationRequest) (log : Log)
    (source_lang target_lang : str) :
  module_init environ = Ok g ->
  SUPPORTED_LANGUAGES !! source_language request = Some source_lang ->
  SUPPORTED_LANGUAGES !! target_language request = Some target_lang ->
  strip (text request) <> [] ->
  len (text request) <= 5000 ->
  let args :=
    {| arg_model := model request;
       arg_messages := messages_of (prompt_of source_lang target_lang (text request));
       arg_temperature := 0.3%Q;
       arg_max_tokens := 1000 |} in
  (forall response,
     create log args = Ok response ->
     choices response = [] ->
     translate_text repr create g request log
     = (Raise (HTTPException 500
                 (lit "Translation failed: list index out of range")),
        log ++ [args])) /\
  (forall response first rest,
     create log args = Ok response ->
     choices response = first :: rest ->
     msg_content (message first) = None ->
     translate_text repr create g request log
     = (Raise (HTTPException 500
                 (lit "Translation failed: 'NoneType' object has no attribute 'strip'")),
        log ++ [args])).
Proof.
  intros Hinit Hsn Htn He Hl args.
  pose proof (started_key_truthy _ _ Hinit) as Hkey.
  pose proof (path_valid repr create g Hkey request log source_lang target_lang
                Hsn Htn He Hl) as R.
  cbv zeta in R. fold args in R. split.
  - intros response Hc Hch. rewrite R, Hc, Hch. reflexivity.
  - intros response first rest Hc Hch Hm. rewrite R, Hc, Hch, Hm. reflexivity.
Qed.

(** "Hello" against an API that answers without any choice. *)
Lemma malformed_completion_reported_witness :
  fst (translate_text Sample.quote (fun _ _ => Ok {| choices := [] |})
         Sample.globals Sample.hello [])
  = Raise (HTTPException 500 (lit "Translation failed: list index out of range")).
Proof.
  rewrite (proj1
    (malformed_completion_reported Sample.environ Sample.globals Sample.quote
       (fun _ _ => Ok {| choices := [] |}) Sample.hello []
       (lit "English") (lit "French") sample_started eq_refl eq_refl
       ltac:(intros H; vm_compute in H; discriminate)
       ltac:(vm_compute; discriminate))
    {| choices := [] |} eq_refl eq_refl).
  reflexivity.
Defined.

(** ** The translated text *)

(** X4. The translated text of every response has no whitespace at its
    start nor at its end. *)
Theorem translated_text_trimmed
    (repr : str -> str)
    (create : Log -> CompletionArgs -> PyResult ChatCompletion)
    (g : Globals) (request : TranslationRequest) (log log' : Log)
    (response : TranslationResponse) :
  translate_text repr create g request log = (Ok response, log') ->
  lstrip (translated_text response) = translated_text response /\
  rstrip (translated_text response) = translated_text response.
Proof.
  intros Hrun.
  destruct (handler_cases repr g request)
    as [[e H] | (sname & tname & _ & _ & _ & _ & _ & H)].
  - rewrite (H create log) in Hrun. discriminate.
  - rewrite (H create log) in Hrun. cbv zeta in Hrun. unfold after_call in Hrun.
    destruct (create log _) as [completion|[status detail|cls msg]];
      [|discriminate|discriminate].
    destruct (choices completion) as [|first rest]; [discriminate|].
    destruct (msg_content (message first)) as [s|]; [|discriminate].
    injection Hrun as <- _. simpl. apply strip_trimmed.
Qed.

(** "Hello" against an API that answers " Bonjour" and a line feed. *)
Lemma translated_text_trimmed_witness :
  lstrip (lit "Bonjour") = lit "Bonjour" /\ rstrip (lit "Bonjour") = lit "Bonjour".
Proof.
  apply (translated_text_trimmed Sample.quote
           (Sample.answers (32%N :: lit "Bonjour" ++ LF)) Sample.globals
           Sample.hello []
           [ {| arg_model := Some default_model;
                arg_messages :=
                  messages_of (prompt_of (lit "English") (lit "French") (lit "Hello"));
                arg_temperature := 0.3%Q;
                arg_max_tokens := 1000 |} ]
           {| original_text := lit "Hello";
              translated_text := lit "Bonjour";
              resp_source_language := lit "en";
              resp_target_language := lit "fr" |}).
  vm_compute. reflexivity.
Defined.

(** X5. The handler does not check what the API returns beyond its shape:
    a completion whose content is empty or all whitespace gives a response
    with the empty string as translated text. *)
Theorem blank_completion_accepted
    (environ : gmap str str) (g : Globals) (repr : str -> str)
    (create : Log -> CompletionArgs -> PyResult ChatCompletion)
    (request : TranslationRequest) (log : Log)
    (source_lang target_lang : str)
    (completion : ChatCompletion) (first : Choice) (rest : list Choice)
    (s : str) :
  module_init environ = Ok g ->
  SUPPORTED_LANGUAGES !! source_language request = Some source_lang ->
  SUPPORTED_LANGUAGES !! target_language request = Some target_lang ->
  strip (text request) <> [] ->
  len (text request) <= 5000 ->
  create log
    {| arg_model := model request;
       arg_messages := messages_of (prompt_of source_lang target_lang (text request));
       arg_temperature := 0.3%Q;
       arg_max_tokens := 1000 |} = Ok completion ->
  choices completion = first :: rest ->
  msg_content (message first) = Some s ->
  forallb isspace s = true ->
  fst (translate_text repr create g request log)
  = Ok {| original_text := text request;
          translated_text := [];
          resp_source_language := source_language request;
          resp_target_language := target_language request |}.
Proof.
  intros Hinit Hsn Htn He Hl Hc Hch Hm Hs.
  pose proof (started_key_truthy _ _ Hinit) as Hkey.
  rewrite (path_valid repr create g Hkey request log source_lang target_lang
             Hsn Htn He Hl).
  cbv zeta. rewrite Hc, Hch, Hm. simpl.
  apply strip_nil_iff in Hs. rewrite Hs. reflexivity.
Qed.

(** "Hello" against an API that answers two spaces. *)
Lemma blank_completion_accepted_witness :
  fst (translate_text Sample.quote (Sample.answers (lit "  ")) Sample.globals
         Sample.hello [])
  = Ok {| original_text := lit "Hello";
          translated_text := [];
          resp_source_language := lit "en";
          resp_target_language := lit "fr" |}.
Proof.
  apply (blank_completion_accepted Sample.environ Sample.globals Sample.quote
           (Sample.answers (lit "  ")) Sample.hello []
           (lit "English") (lit "French")
           (Sample.completion (lit "  "))
           {| message := {| msg_content := Some (lit "  ") |} |} []
           (lit "  ") sample_started).
  - vm_compute. reflexivity.
  - vm_compute. reflexivity.
  - intros H. vm_compute in H. discriminate.
  - vm_compute. discriminate.
  - reflexivity.
  - reflexivity.
  - reflexivity.
  - reflexivity.
Defined.

(** ** The key *)

(** X6. The key is looked at before anything else: with a key that is
    [None] or empty every request, valid or not, is answered 500 with
    detail "OpenAI API key not configured", and no call is made. *)
Theorem missing_key_precedes_validation
    (repr : str -> str)
    (create : Log -> CompletionArgs -> PyResult ChatCompletion)
    (g : Globals) (request : TranslationRequest) (log : Log) :
  api_key g = None \/ api_key g = Some [] ->
  translate_text repr create g request log
  = (Raise (HTTPException 500 (lit "OpenAI API key not configured")), log).
Proof.
  intros Hk. unfold translate_text, translate_try.
  destruct Hk as [-> | ->]; reflexivity.
Qed.

(** A request with an unsupported source and an empty text, without a key. *)
Lemma missing_key_precedes_validation_witness :
  translate_text Sample.quote (Sample.answers (lit "Bonjour"))
    {| api_key := Some [] |} (Sample.request [] (lit "xx") (lit "fr")) []
  = (Raise (HTTPException 500 (lit "OpenAI API key not configured")), []).
Proof.
  apply (missing_key_precedes_validation Sample.quote
           (Sample.answers (lit "Bonjour")) {| api_key := Some [] |}
           (Sample.request [] (lit "xx") (lit "fr")) []).
  right. reflexivity.
Defined.


(** ** The language table *)

Lemma table_lookup (code name : str) :
  SUPPORTED_LANGUAGES !! code = Some name <->
  In (code, name)
     [ (lit "fr", lit "French");
       (lit "en", lit "English");
       (lit "es", lit "Spanish");
       (lit "de", lit "German");
       (lit "it", lit "Italian");
       (lit "pt", lit "Portuguese");
       (lit "ru", lit "Russian");
       (lit "ja", lit "Japanese");
       (lit "ko", lit "Korean");
       (lit "zh", lit "Chinese");
       (lit "ar", lit "Arabic");
       (lit "hi", lit "Hindi") ].
Proof.
  rewrite <- list_elem_of_In. unfold SUPPORTED_LANGUAGES.
  symmetry. apply elem_of_list_to_map.
  refine (bool_decide_unpack _ _). vm_compute. exact I.
Qed.

Lemma display_name_short (code name : str) :
  SUPPORTED_LANGUAGES !! code = Some name -> len name <= 10.
Proof.
  intros H. apply table_lookup in H. simpl in H.
  repeat (destruct H as [H|H];
          [injection H as _ <-; vm_compute; discriminate|]).
  contradiction.
Qed.

(** Every key of the table is made of two lower-case ASCII letters. *)
Lemma supported_code_shape (code : str) :
  supported code ->
  len code = 2 /\ Forall (fun c => (97 <= c <= 122)%N) code.
Proof.
  intros [name H]. apply table_lookup in H. simpl in H.
  repeat (destruct H as [H|H];
          [injection H as <- _; split;
           [reflexivity | repeat constructor; vm_compute; discriminate]|]).
  contradiction.
Qed.

(** X8. Language codes are compared as they are sent, without trimming or
    case folding: in a started process a source code that is not made of
    exactly two lower-case ASCII letters is turned down with 400, the
    detail quoting the code unchanged, and no call is made. *)
Theorem codes_not_normalised
    (environ : gmap str str) (g : Globals) (repr : str -> str)
    (create : Log -> CompletionArgs -> PyResult ChatCompletion)
    (request : TranslationRequest) (log : Log) :
  module_init environ = Ok g ->
  len (source_language request) <> 2 \/
  Exists (fun c => (c < 97 \/ 122 < c)%N) (source_language request) ->
  translate_text repr create g request log
  = (Raise (HTTPException 400
              (lit "Source language '" ++ source_language request
               ++ lit "' not supported")),
     log).
Proof.
  intros Hinit Hshape.
  pose proof (started_key_truthy _ _ Hinit) as Hkey.
  apply (path_unsupported_source repr create g Hkey).
  intros Hs. apply supported_code_shape in Hs. destruct Hs as [Hlen Hall].
  destruct Hshape as [Hne | Hex]; [exact (Hne Hlen)|].
  apply Exists_exists in Hex. destruct Hex as (c & Hin & Hc).
  rewrite Forall_forall in Hall. specialize (Hall c Hin). lia.
Qed.

(** The code "EN", in upper case, with a valid text. *)
Lemma codes_not_normalised_witness :
  translate_text Sample.quote (Sample.answers (lit "Bonjour")) Sample.globals
    (Sample.request (lit "Hello") (lit "EN") (lit "fr")) []
  = (Raise (HTTPException 400 (lit "Source language 'EN' not supported")), []).
Proof.
  apply (codes_not_normalised Sample.environ Sample.globals Sample.quote
           (Sample.answers (lit "Bonjour"))
           (Sample.request (lit "Hello") (lit "EN") (lit "fr")) []
           sample_started).
  right. apply Exists_cons_hd. left. vm_compute. reflexivity.
Defined.

(** ** The size of the prompt *)

Lemma prompt_length (source_lang target_lang txt : str) :
  len (prompt_of source_lang target_lang txt)
  = 181 + len source_lang + len target_lang + len txt.
Proof.
  unfold prompt_of, len, LF, indent.
  repeat rewrite length_app.
  repeat match goal with
         | |- context [length (lit ?x)] =>
             let n := eval vm_compute in (length (lit x)) in
             change (length (lit x)) with n
         end.
  simpl length. lia.
Qed.

(** X9. The user message sent for a request is the text with 181 fixed
    characters and the two display names around it, so for every request
    that reaches the API it has at most 5201 characters. *)
Theorem prompt_size_bounded
    (environ : gmap str str) (g : Globals) (repr : str -> str)
    (create : Log -> CompletionArgs -> PyResult ChatCompletion)
    (request : TranslationRequest) (log : Log) (args : CompletionArgs) :
  module_init environ = Ok g ->
  snd (translate_text repr create g request log) = log ++ [args] ->
  exists system_message user_message,
    arg_messages args = [system_message; user_message] /\
    len (text request) + 181 <= len (content user_message) <= 5201.
Proof.
  intros Hinit Hlog.
  destruct (handler_cases repr g request)
    as [[e H] | (sname & tname & _ & Hsn & Htn & _ & Hl & H)].
  - rewrite (H create log) in Hlog. simpl in Hlog.
    symmetry in Hlog. apply log_grows in Hlog. contradiction.
  - rewrite (H create log) in Hlog. simpl in Hlog.
    apply app_inv_head in Hlog. injection Hlog as <-.
    eexists. eexists. split; [reflexivity|]. simpl content.
    rewrite prompt_length.
    pose proof (display_name_short _ _ Hsn).
    pose proof (display_name_short _ _ Htn).
    unfold len in *. lia.
Qed.

(** The one call made for "Hello" from "en" to "fr". *)
Lemma prompt_size_bounded_witness :
  exists system_message user_message,
    messages_of (prompt_of (lit "English") (lit "French") (lit "Hello"))
    = [system_message; user_message] /\
    len (text Sample.hello) + 181 <= len (content user_message) <= 5201.
Proof.
  apply (prompt_size_bounded Sample.environ Sample.globals Sample.quote
           (Sample.answers (lit "Bonjour")) Sample.hello []
           {| arg_model := Some default_model;
              arg_messages :=
                messages_of (prompt_of (lit "English") (lit "French") (lit "Hello"));
              arg_temperature := 0.3%Q;
              arg_max_tokens := 1000 |}
           sample_started).
  vm_compute. reflexivity.
Defined.

(** * Properties of the client form *)

(** X10. A click on an enabled button always posts the request, with the
    text, the two selections and the selected model as they are; the two
    warnings of the click handler can only be reached with a button that
    is disabled. *)
Theorem enabled_button_posts (txt source_lang target_lang selected_model : str) :
  (ClientForm.button_disabled txt source_lang target_lang = false ->
   ClientForm.on_translate txt source_lang target_lang selected_model
   = ClientForm.Post {| body_text := txt;
                        body_source_language := source_lang;
                        body_target_language := target_lang;
                        body_model := Some (Some selected_model) |}) /\
  (ClientForm.button_disabled txt source_lang target_lang = true ->
   ClientForm.on_translate txt source_lang target_lang selected_model
   = ClientForm.WarnSameLanguage \/
   ClientForm.on_translate txt source_lang target_lang selected_model
   = ClientForm.WarnNoText).
Proof.
  unfold ClientForm.button_disabled, ClientForm.on_translate.
  destruct (bool_decide (source_lang = target_lang));
    destruct (truthy (strip txt)); simpl; split; intros H;
    try discriminate; auto.
Qed.


(** X12. What the form posts is never turned down by the service's
    validation: with the two codes taken from the language table and a text
    within the 5000 characters of the text area, a posted request has two
    different codes and reaches the completion API, with the selected model
    and the untrimmed text. *)
Theorem form_requests_pass_validation
    (environ : gmap str str) (g : Globals) (repr : str -> str)
    (create : Log -> CompletionArgs -> PyResult ChatCompletion)
    (log : Log) (txt source_lang target_lang selected_model : str)
    (payload : TranslationBody) :
  module_init environ = Ok g ->
  supported source_lang ->
  supported target_lang ->
  len txt <= 5000 ->
  ClientForm.on_translate txt source_lang target_lang selected_model
  = ClientForm.Post payload ->
  source_lang <> target_lang /\
  exists source_name target_name,
    SUPPORTED_LANGUAGES !! source_lang = Some source_name /\
    SUPPORTED_LANGUAGES !! target_lang = Some target_name /\
    snd (translate_text repr create g (parse_request payload) log)
    = log ++ [ {| arg_model := Some selected_model;
                  arg_messages :=
                    messages_of (prompt_of source_name target_name txt);
                  arg_temperature := 0.3%Q;
                  arg_max_tokens := 1000 |} ].
Proof.
  intros Hinit Hs Ht Hl Hpost.
  pose proof (started_key_truthy _ _ Hinit) as Hkey.
  unfold ClientForm.on_translate in Hpost.
  destruct (bool_decide (source_lang = target_lang)) eqn:Heq; [discriminate|].
  destruct (truthy (strip txt)) eqn:Hn; simpl in Hpost; [|discriminate].
  injection Hpost as <-.
  split; [apply bool_decide_eq_false in Heq; exact Heq|].
  destruct (supported_lookup _ Hs) as [sname Hsn].
  destruct (supported_lookup _ Ht) as [tname Htn].
  exists sname, tname. split; [exact Hsn|]. split; [exact Htn|].
  assert (He : strip txt <> []) by (intros E; rewrite E in Hn; discriminate).
  match goal with
  | |- context [translate_text _ _ _ ?r _] =>
      rewrite (path_valid repr create g Hkey r log sname tname Hsn Htn He Hl)
  end.
  reflexivity.
Qed.

(** "Hello" from "en" to "fr" with the model "gpt-4". *)
Lemma form_requests_pass_validation_witness :
  lit "en" <> lit "fr" /\
  exists source_name target_name,
    SUPPORTED_LANGUAGES !! lit "en" = Some source_name /\
    SUPPORTED_LANGUAGES !! lit "fr" = Some target_name /\
    snd (translate_text Sample.quote (Sample.answers (lit "Bonjour")) Sample.globals
           (parse_request
              {| body_text := lit "Hello";
                 body_source_language := lit "en";
                 body_target_language := lit "fr";
                 body_model := Some (Some (lit "gpt-4")) |}) [])
    = [] ++ [ {| arg_model := Some (lit "gpt-4");
                 arg_messages :=
                   messages_of (prompt_of source_name target_name (lit "Hello"));
                 arg_temperature := 0.3%Q;
                 arg_max_tokens := 1000 |} ].
Proof.
  apply (form_requests_pass_validation Sample.environ Sample.globals Sample.quote
           (Sample.answers (lit "Bonjour")) []
           (lit "Hello") (lit "en") (lit "fr") (lit "gpt-4")
           {| body_text := lit "Hello";
              body_source_language := lit "en";
              body_target_language := lit "fr";
              body_model := Some (Some (lit "gpt-4")) |}
           sample_started sample_supported_en sample_supported_fr).
  - vm_compute. discriminate.
  - vm_compute. reflexivity.
Defined.

(** ** The client's call *)

Section ClientCall.

Variable API_BASE_URL : str.
Variable post : str -> TranslationBody -> Z -> Frontend.ClientResult Frontend.Response.
Variables txt source_lang target_lang selected_model : str.

Let outcome : Frontend.ClientResult Frontend.Response :=
  post (API_BASE_URL ++ lit "/translate")
    {| body_text := txt;
       body_source_language := source_lang;
       body_target_language := target_lang;
       body_model := Some (Some selected_model) |} 30.

Let result : Frontend.ClientResult Frontend.TranslateResult :=
  Frontend.translate_text API_BASE_URL post txt source_lang target_lang
    selected_model.

Lemma client_on_request_exception (message : str) :
  outcome = Frontend.Raised (Frontend.RequestException message) ->
  result = Frontend.Returned
             (Frontend.Failure
                (Frontend.JStr (lit "Erreur de connexion: " ++ message))).
Proof.
  unfold result, Frontend.translate_text. fold outcome. intros ->. reflexivity.
Qed.

Lemma client_on_ok (response : Frontend.Response) (data : Frontend.json) :
  outcome = Frontend.Returned response ->
  Frontend.status_code response = 200 ->
  Frontend.json_result response = Frontend.Returned data ->
  result = Frontend.Returned (Frontend.Success data).
Proof.
  unfold result, Frontend.translate_text. fold outcome. intros -> Hs Hj.
  simpl. rewrite Hs, Hj. reflexivity.
Qed.

Lemma client_on_error_status (response : Frontend.Response)
    (body : Frontend.json) :
  outcome = Frontend.Returned response ->
  Frontend.status_code response <> 200 ->
  Frontend.json_result response = Frontend.Returned body ->
  result =
    Frontend.cbind
      (Frontend.get body (lit "detail") (Frontend.JStr (lit "Erreur inconnue")))
      (fun detail => Frontend.Returned (Frontend.Failure detail)).
Proof.
  unfold result, Frontend.translate_text. fold outcome. intros -> Hs Hj.
  simpl. apply Z.eqb_neq in Hs. rewrite Hs, Hj. simpl.
  destruct body; reflexivity.
Qed.

Lemma client_on_undecodable (response : Frontend.Response) (message : str) :
  outcome = Frontend.Returned response ->
  Frontend.json_result response
  = Frontend.Raised (Frontend.RequestException message) ->
  result = Frontend.Returned
             (Frontend.Failure
                (Frontend.JStr (lit "Erreur de connexion: " ++ message))).
Proof.
  unfold result, Frontend.translate_text. fold outcome. intros -> Hj.
  simpl. rewrite Hj. destruct (Frontend.status_code response =? 200); reflexivity.
Qed.

End ClientCall.

(** X13. The client turns every answer it can read into a result instead
    of raising: a 200 answer gives success with the decoded body as it is;
    any other status with a JSON object gives a failure whose error is the
    object's "detail" member, or "Erreur inconnue" when there is none; a
    [RequestException] of the call or of the decoding gives the error
    "Erreur de connexion: " followed by its message. *)
Theorem client_translate_outcomes
    (API_BASE_URL : str)
    (post : str -> TranslationBody -> Z -> Frontend.ClientResult Frontend.Response)
    (txt source_lang target_lang selected_model : str) :
  let outcome :=
    post (API_BASE_URL ++ lit "/translate")
      {| body_text := txt;
         body_source_language := source_lang;
         body_target_language := target_lang;
         body_model := Some (Some selected_model) |} 30 in
  let result :=
    Frontend.translate_text API_BASE_URL post txt source_lang target_lang
      selected_model in
  (forall response data,
     outcome = Frontend.Returned response ->
     Frontend.status_code response = 200 ->
     Frontend.json_result response = Frontend.Returned data ->
     result = Frontend.Returned (Frontend.Success data)) /\
  (forall response items,
     outcome = Frontend.Returned response ->
     Frontend.status_code response <> 200 ->
     Frontend.json_result response = Frontend.Returned (Frontend.JDict items) ->
     result = Frontend.Returned
                (Frontend.Failure
                   match Frontend.dict_get (lit "detail") items with
                   | Some detail => detail
                   | None => Frontend.JStr (lit "Erreur inconnue")
                   end)) /\
  (forall message,
     outcome = Frontend.Raised (Frontend.RequestException message) ->
     result = Frontend.Returned
                (Frontend.Failure
                   (Frontend.JStr (lit "Erreur de connexion: " ++ message)))) /\
  (forall response message,
     outcome = Frontend.Returned response ->
     Frontend.json_result response
     = Frontend.Raised (Frontend.RequestException message) ->
     result = Frontend.Returned
                (Frontend.Failure
                   (Frontend.JStr (lit "Erreur de connexion: " ++ message)))).
Proof.
  intros outcome result. split; [|split; [|split]].
  - intros response data Ho Hs Hj.
    exact (client_on_ok API_BASE_URL post txt source_lang target_lang
             selected_model response data Ho Hs Hj).
  - intros response items Ho Hs Hj.
    unfold result.
    rewrite (client_on_error_status API_BASE_URL post txt source_lang
               target_lang selected_model response _ Ho Hs Hj).
    reflexivity.
  - intros message Ho.
    exact (client_on_request_exception API_BASE_URL post txt source_lang
             target_lang selected_model message Ho).
  - intros response message Ho Hj.
    exact (client_on_undecodable API_BASE_URL post txt source_lang target_lang
             selected_model response message Ho Hj).
Qed.

(** X14. The client reports success only for an answer of status 200 whose
    body could be decoded, and the data it hands on is that decoded body. *)
Theorem client_success_only_on_200
    (API_BASE_URL : str)
    (post : str -> TranslationBody -> Z -> Frontend.ClientResult Frontend.Response)
    (txt source_lang target_lang selected_model : str) (data : Frontend.json) :
  Frontend.translate_text API_BASE_URL post txt source_lang target_lang
    selected_model
  = Frontend.Returned (Frontend.Success data) ->
  exists response,
    post (API_BASE_URL ++ lit "/translate")
      {| body_text := txt;
         body_source_language := source_lang;
         body_target_language := target_lang;
         body_model := Some (Some selected_model) |} 30
    = Frontend.Returned response /\
    Frontend.status_code response = 200 /\
    Frontend.json_result response = Frontend.Returned data.
Proof.
  unfold Frontend.translate_text. intros H.
  destruct (post _ _ _) as [response|[message|cls message]];
    simpl in H; [|discriminate|discriminate].
  exists response. split; [reflexivity|].
  destruct (Frontend.status_code response =? 200) eqn:Hs.
  - split; [apply Z.eqb_eq; exact Hs|].
    destruct (Frontend.json_result response) as [d|[message|cls message]];
      simpl in H; [|discriminate|discriminate].
    injection H as ->. reflexivity.
  - destruct (Frontend.json_result response) as [d|[message|cls message]];
      simpl in H; [|discriminate|discriminate].
    destruct d; simpl in H; discriminate.
Qed.

(** A transport that answers 200 with the body [{"translated_text":
    "Bonjour"}]. *)
Lemma client_success_only_on_200_witness :
  exists response,
    Frontend.Returned
      {| Frontend.status_code := 200;
         Frontend.json_result :=
           Frontend.Returned
             (Frontend.JDict
                [ (lit "translated_text", Frontend.JStr (lit "Bonjour")) ]) |}
    = Frontend.Returned response /\
    Frontend.status_code response = 200 /\
    Frontend.json_result response
    = Frontend.Returned
        (Frontend.JDict
           [ (lit "translated_text", Frontend.JStr (lit "Bonjour")) ]).
Proof.
  apply (client_success_only_on_200 (lit "http://localhost:8000")
           (fun _ _ _ =>
              Frontend.Returned
                {| Frontend.status_code := 200;
                   Frontend.json_result :=
                     Frontend.Returned
                       (Frontend.JDict
                          [ (lit "translated_text",
                             Frontend.JStr (lit "Bonjour")) ]) |})
           (lit "Hello") (lit "en") (lit "fr") (lit "gpt-4")).
  reflexivity.
Defined.

(** X15. The client does raise in two cases: an answer of another status
    than 200 whose body is JSON but not an object makes it raise an
    AttributeError on [get], and an exception of the call or of the
    decoding that is no [RequestException] passes through it. *)
Theorem client_translate_raises
    (API_BASE_URL : str)
    (post : str -> TranslationBody -> Z -> Frontend.ClientResult Frontend.Response)
    (txt source_lang target_lang selected_model : str) :
  let outcome :=
    post (API_BASE_URL ++ lit "/translate")
      {| body_text := txt;
         body_source_language := source_lang;
         body_target_language := target_lang;
         body_model := Some (Some selected_model) |} 30 in
  let result :=
    Frontend.translate_text API_BASE_URL post txt source_lang target_lang
      selected_model in
  (forall response body,
     outcome = Frontend.Returned response ->
     Frontend.status_code response <> 200 ->
     Frontend.json_result response = Frontend.Returned body ->
     (forall items, body <> Frontend.JDict items) ->
     result = Frontend.Raised
                (Frontend.OtherException (lit "AttributeError")
                   (lit "'" ++ Frontend.type_name body
                    ++ lit "' object has no attribute 'get'"))) /\
  (forall cls message,
     outcome = Frontend.Raised (Frontend.OtherException cls message) ->
     result = Frontend.Raised (Frontend.OtherException cls message)) /\
  (forall response cls message,
     outcome = Frontend.Returned response ->
     Frontend.json_result response
     = Frontend.Raised (Frontend.OtherException cls message) ->
     result = Frontend.Raised (Frontend.OtherException cls message)).
Proof.
  intros outcome result. split; [|split].
  - intros response body Ho Hs Hj Hbody. unfold result.
    rewrite (client_on_error_status API_BASE_URL post txt source_lang
               target_lang selected_model response body Ho Hs Hj).
    destruct body; try reflexivity. exfalso. exact (Hbody items eq_refl).
  - intros cls message Ho. unfold result, Frontend.translate_text.
    fold outcome. rewrite Ho. reflexivity.
  - intros response cls message Ho Hj. unfold result, Frontend.translate_text.
    fold outcome. rewrite Ho. simpl. rewrite Hj.
    destruct (Frontend.status_code response =? 200); reflexivity.
Qed.
